(** * Fanfiction Explorer: query engine and index manager

    A shallow embedding of [app/utils.py], [app/api.py], [app/routes.py]
    and [app/db_indexes.py], and the properties of the search, statistics
    and index-maintenance operations proved about it.

    The Python code talks to one SQLite table, [metadata_full].  The
    table is a list of rows in storage order, a query is the function on
    that list that SQLite documents for it, and Python exceptions are the
    [Raise] branch of a result type.

    Conventions of the model:
    - Python [int] is unbounded, so integers are [Z]. An integer handed
      to SQLite as a parameter must fit the signed 64-bit range, or
      [sqlite3] raises [OverflowError]; [search_stories] and the author
      statistics endpoint model that. The integers stored in the table are
      not bounded, and [SUM] does not overflow.
    - [AVG] is the exact quotient in [Q], of which SQLite returns the
      nearest double; [int()] of the two agrees on totals below 2^53.
    - strings are sequences of one-byte characters; case folding and
      white space are the ASCII ones. Literals given to [int()] and
      patterns given to [LIKE] are within the lengths CPython and SQLite
      accept (4300 digits and 50000 bytes unless configured otherwise). *)

From Stdlib Require Import ZArith QArith Lia List Ascii String Permutation Bool.
From stdpp Require Import base strings list gmap.

Open Scope string_scope.
Open Scope list_scope.
Open Scope Z_scope.

(** ** Python values and exceptions *)

Module Py.

(** The exceptions the modelled code can raise. [ValueError] carries the
    literal [int()] rejected; [OverflowError] is what [sqlite3] raises for
    a parameter that is too large to convert to an SQLite INTEGER. *)
Inductive exn : Type :=
| ValueError (literal : string)
| ZeroDivisionError
| OverflowError.

Inductive result (A : Type) : Type :=
| Ok (a : A)
| Raise (e : exn).

Arguments Ok {A} a.
Arguments Raise {A} e.

Definition bind {A B : Type} (r : result A) (k : A -> result B) : result B :=
  match r with
  | Ok a => k a
  | Raise e => Raise e
  end.

Definition is_ok {A : Type} (r : result A) : bool :=
  match r with
  | Ok _ => true
  | Raise _ => false
  end.

(** Truth value of a [str]: only the empty string is falsy. *)
Definition truthy (s : string) : bool :=
  match s with
  | EmptyString => false
  | String _ _ => true
  end.

(** [d.get(key)] used as a condition: a missing key gives [None], which is
    falsy. *)
Definition get_truthy (d : gmap string string) (key : string) : option string :=
  match d !! key with
  | Some v => if truthy v then Some v else None
  | None => None
  end.

Definition code (c : ascii) : N := N_of_ascii c.

(** [str.isspace] on ASCII: TAB, LF, VT, FF, CR, FS, GS, RS, US, SPACE. *)
Definition isspace (c : ascii) : bool :=
  let n := code c in
  ((9 <=? n) && (n <=? 13) || (28 <=? n) && (n <=? 32))%N.

Definition isdigit (c : ascii) : bool :=
  let n := code c in ((48 <=? n) && (n <=? 57))%N.

Definition digit_value (c : ascii) : Z := Z.of_N (code c) - 48.

Fixpoint lstrip (s : string) : string :=
  match s with
  | EmptyString => EmptyString
  | String c s' => if isspace c then lstrip s' else s
  end.

Fixpoint rstrip (s : string) : string :=
  match s with
  | EmptyString => EmptyString
  | String c s' =>
      match rstrip s' with
      | EmptyString => if isspace c then EmptyString else String c EmptyString
      | r => String c r
      end
  end.

(** [str.strip()] *)
Definition strip (s : string) : string := rstrip (lstrip s).

(** The digits of a decimal literal: one or more digits, with single
    underscores allowed between digits. [seen] tells whether the previous
    character was a digit. *)
Fixpoint int_digits (acc : Z) (seen : bool) (s : string) : option Z :=
  match s with
  | EmptyString => if seen then Some acc else None
  | String c s' =>
      if isdigit c then int_digits (10 * acc + digit_value c) true s'
      else if Ascii.eqb c "_" && seen then int_digits acc false s'
      else None
  end.

(** [int(s)] on a string, base 10; [None] stands for the [ValueError]. *)
Definition parse_int (s : string) : option Z :=
  match strip s with
  | String "+" r => int_digits 0 false r
  | String "-" r => option_map Z.opp (int_digits 0 false r)
  | t => int_digits 0 false t
  end.

Definition int (s : string) : result Z :=
  match parse_int s with
  | Some n => Ok n
  | None => Raise (ValueError s)
  end.

(** [int(d.get(key, default))] with an integer default: the default is
    returned as it is, a present value goes through [int()]. *)
Definition int_arg (d : gmap string string) (key : string) (default : Z) : result Z :=
  match d !! key with
  | Some v => int v
  | None => Ok default
  end.

(** [int(x)] on a rational: truncation towards zero. *)
Definition trunc (q : Q) : Z := Z.quot (Qnum q) (Zpos (Qden q)).

(** [math.ceil(a / b)] for integers [a] and [b]. *)
Definition ceil_div (a b : Z) : result Z :=
  if (b =? 0)%Z then Raise ZeroDivisionError else Ok (- ((- a) / b)).

(** [a // b] *)
Definition floor_div (a b : Z) : result Z :=
  if (b =? 0)%Z then Raise ZeroDivisionError else Ok (a / b).

End Py.

Notation "'do' x <- r ; k" := (Py.bind r (fun x => k))
  (at level 10, x name, r at level 100, k at level 200).

(** ** The SQL fragment the queries use *)

Module Sql.

(** An SQLite INTEGER: the signed 64-bit range. *)
Definition int64 (n : Z) : bool :=
  (- 2 ^ 63 <=? n) && (n <=? 2 ^ 63 - 1).

(** Binding the integer parameters of a statement, which [cursor.execute]
    does before the statement runs: a Python [int] outside the range
    raises [OverflowError]. *)
Definition bind (params : list Z) : Py.result unit :=
  if forallb int64 params then Py.Ok tt else Py.Raise Py.OverflowError.

Definition lower (c : ascii) : ascii :=
  let n := N_of_ascii c in
  if ((65 <=? n) && (n <=? 90))%N then ascii_of_N (n + 32) else c.

Definition nocase_eqb (c d : ascii) : bool := Ascii.eqb (lower c) (lower d).

(** Identifiers (index and column names) compare without regard to ASCII
    case. *)
Fixpoint name_eqb (s t : string) : bool :=
  match s, t with
  | EmptyString, EmptyString => true
  | String c s', String d t' => nocase_eqb c d && name_eqb s' t'
  | _, _ => false
  end.

(** [text LIKE pattern]: [%] matches any run of characters, [_] any one
    character, every other character matches itself up to ASCII case. *)
Fixpoint like (pattern text : string) : bool :=
  match pattern with
  | EmptyString =>
      match text with
      | EmptyString => true
      | String _ _ => false
      end
  | String c p' =>
      if Ascii.eqb c "%" then
        (fix any (t : string) : bool :=
           like p' t ||
           match t with
           | EmptyString => false
           | String _ t' => any t'
           end) text
      else
        match text with
        | EmptyString => false
        | String d t' => (Ascii.eqb c "_" || nocase_eqb c d) && like p' t'
        end
  end.

(** Three-valued logic: [None] is SQL's NULL. *)
Definition and3 (a b : option bool) : option bool :=
  match a, b with
  | Some false, _ | _, Some false => Some false
  | Some true, Some true => Some true
  | _, _ => None
  end.

Definition not3 (a : option bool) : option bool := option_map negb a.

Definition like3 (v : option string) (pattern : string) : option bool :=
  option_map (like pattern) v.

Definition eq3 (v : option string) (x : string) : option bool :=
  option_map (fun s => String.eqb s x) v.

Definition ne3 (v : option string) (x : string) : option bool :=
  not3 (eq3 v x).

Definition ge3 (v : option Z) (x : Z) : option bool :=
  option_map (fun n => (x <=? n)%Z) v.

Definition le3 (v : option Z) (x : Z) : option bool :=
  option_map (fun n => (n <=? x)%Z) v.

Definition gt3 (v : option Z) (x : Z) : option bool :=
  option_map (fun n => (x <? n)%Z) v.

Definition is_not_null {A : Type} (v : option A) : option bool :=
  Some (match v with Some _ => true | None => false end).

(** A WHERE clause keeps the rows on which it is true; false and NULL
    both drop the row. *)
Definition holds (v : option bool) : bool :=
  match v with
  | Some true => true
  | _ => false
  end.

Definition where_ {A : Type} (p : A -> option bool) (rows : list A) : list A :=
  List.filter (fun r => holds (p r)) rows.

(** Aggregates skip NULL. [SUM] and [AVG] of no value are NULL. *)
Definition non_null {A : Type} (vs : list (option A)) : list A :=
  flat_map (fun v => match v with Some x => x :: nil | None => nil end) vs.

Definition total (ns : list Z) : Z := fold_right Z.add 0 ns.

Definition sum (vs : list (option Z)) : option Z :=
  match non_null vs with
  | nil => None
  | ns => Some (total ns)
  end.

Definition avg (vs : list (option Z)) : option Q :=
  match non_null vs with
  | nil => None
  | ns => Some (Qmake (total ns) (Pos.of_nat (length ns)))
  end.

Definition count_star {A : Type} (rows : list A) : Z := Z.of_nat (length rows).

(** [LIMIT l OFFSET o]: a negative offset reads as 0 and a negative limit
    as no limit. *)
Definition limit_offset {A : Type} (l o : Z) (rows : list A) : list A :=
  let rest := skipn (Z.to_nat o) rows in
  if (l <? 0)%Z then rest else firstn (Z.to_nat l) rest.

Definition limit {A : Type} (l : Z) (rows : list A) : list A :=
  limit_offset l 0 rows.

(** [ORDER BY key DESC], keeping rows of equal key in their input order.
    [lt x y] says that the key of [x] sorts strictly before the key of
    [y]. *)
Fixpoint insert_desc {A : Type} (lt : A -> A -> bool) (x : A) (rows : list A) : list A :=
  match rows with
  | nil => x :: nil
  | y :: rows' => if lt x y then y :: insert_desc lt x rows' else x :: rows
  end.

Definition order_by_desc {A : Type} (lt : A -> A -> bool) (rows : list A) : list A :=
  fold_right (insert_desc lt) nil rows.

(** Order of text values: NULL sorts before every text, texts compare
    byte by byte. *)
Definition text_lt (a b : option string) : bool :=
  match a, b with
  | None, Some _ => true
  | Some s, Some t => String.ltb s t
  | _, None => false
  end.

End Sql.

(** ** [app/utils.py]: the query engine *)

Module Utils.

(** One row of [metadata_full]. Every column but the row id may be NULL. *)
Record story : Type := mkStory {
  rowid : Z;
  Title : option string;
  Author : option string;
  Category : option string;
  Genre : option string;
  Language : option string;
  Status : option string;
  Rating : option string;
  word_count : option Z;
  chapter_count : option Z;
  Updated : option string;
  Published : option string
}.

(** The table, in storage order. *)
Abbreviation table := (list story).

(** [get_basic_stats] *)

Record basic_stats : Type := mkBasicStats {
  total_stories : Z;
  unique_authors : Z;
  total_words : option Z;
  avg_words : Z
}.

(** [WHERE Author IS NOT NULL AND Author != ''] *)
Definition author_present (r : story) : option bool :=
  Sql.and3 (Sql.is_not_null (Author r)) (Sql.ne3 (Author r) "").

(** [int(x) if x else 0] on an aggregate that may be NULL. *)
Definition int_or_zero (x : option Q) : Z :=
  match x with
  | Some a => if Qnum a =? 0 then 0 else Py.trunc a
  | None => 0
  end.

Definition get_basic_stats (db : table) : basic_stats :=
  let total_stories := Sql.count_star db in
  let unique_authors :=
    Sql.count_star
      (remove_dups (Sql.non_null (map Author (Sql.where_ author_present db)))) in
  let total_words :=
    Sql.sum (map word_count
               (Sql.where_ (fun r => Sql.is_not_null (word_count r)) db)) in
  let avg_words :=
    Sql.avg (map word_count (Sql.where_ (fun r => Sql.gt3 (word_count r) 0) db)) in
  {| total_stories := total_stories;
     unique_authors := unique_authors;
     total_words := total_words;
     avg_words := int_or_zero avg_words |}.

(** [get_top_authors] *)

(** A result row: [Author, story_count, avg_words, total_words]. *)
Record author_row : Type := mkAuthorRow {
  ar_author : string;
  ar_story_count : Z;
  ar_avg_words : option Q;
  ar_total_words : option Z
}.

(** The rows of one group of [GROUP BY Author]. *)
Definition author_group (a : string) (rows : table) : table :=
  List.filter (fun r => Sql.holds (Sql.eq3 (Author r) a)) rows.

Definition aggregate_author (rows : table) (a : string) : author_row :=
  let g := author_group a rows in
  {| ar_author := a;
     ar_story_count := Sql.count_star g;
     ar_avg_words := Sql.avg (map word_count g);
     ar_total_words := Sql.sum (map word_count g) |}.

(** The groups come in the order [remove_dups] leaves the authors in; SQL
    fixes no order among groups of equal [story_count]. These are the rows
    of the query for a [limit] that SQLite can bind; the caller's model
    checks that first. *)
Definition get_top_authors (db : table) (limit : Z) : list author_row :=
  let rows := Sql.where_ author_present db in
  let groups := map (aggregate_author rows) (remove_dups (Sql.non_null (map Author rows))) in
  Sql.limit limit
    (Sql.order_by_desc (fun x y => ar_story_count x <? ar_story_count y) groups).

(** [search_stories] *)

Inductive text_column : Type :=
| ColTitle | ColAuthor | ColCategory | ColGenre | ColLanguage | ColStatus | ColRating.

Definition column_value (c : text_column) (r : story) : option string :=
  match c with
  | ColTitle => Title r
  | ColAuthor => Author r
  | ColCategory => Category r
  | ColGenre => Genre r
  | ColLanguage => Language r
  | ColStatus => Status r
  | ColRating => Rating r
  end.

(** One entry of [where_conditions] with its entry of [params]. *)
Inductive condition : Type :=
| Like (c : text_column) (param : string)      (* "<c> LIKE ?" *)
| Equals (c : text_column) (param : string)    (* "<c> = ?" *)
| WordCountGe (param : Z)                      (* "word_count >= ?" *)
| WordCountLe (param : Z).                     (* "word_count <= ?" *)

Definition eval_condition (c : condition) (r : story) : option bool :=
  match c with
  | Like col p => Sql.like3 (column_value col r) p
  | Equals col p => Sql.eq3 (column_value col r) p
  | WordCountGe n => Sql.ge3 (word_count r) n
  | WordCountLe n => Sql.le3 (word_count r) n
  end.

(** [" AND ".join(where_conditions)]; no condition means no WHERE. *)
Definition eval_where (conds : list condition) (r : story) : option bool :=
  fold_right (fun c acc => Sql.and3 (eval_condition c r) acc) (Some true) conds.

Definition add_like (q : gmap string string) (key : string) (col : text_column)
    (conds : list condition) : list condition :=
  match Py.get_truthy q key with
  | Some v => conds ++ Like col ("%" ++ v ++ "%")%string :: nil
  | None => conds
  end.

Definition add_equals (q : gmap string string) (key : string) (col : text_column)
    (conds : list condition) : list condition :=
  match Py.get_truthy q key with
  | Some v => conds ++ Equals col v :: nil
  | None => conds
  end.

Definition add_bound (q : gmap string string) (key : string) (mk : Z -> condition)
    (conds : list condition) : Py.result (list condition) :=
  match Py.get_truthy q key with
  | Some v => do n <- Py.int v; Py.Ok (conds ++ mk n :: nil)
  | None => Py.Ok conds
  end.

Definition where_conditions (q : gmap string string) : Py.result (list condition) :=
  let c := add_like q "title" ColTitle nil in
  let c := add_like q "author" ColAuthor c in
  let c := add_like q "category" ColCategory c in
  let c := add_like q "genre" ColGenre c in
  let c := add_equals q "language" ColLanguage c in
  let c := add_equals q "status" ColStatus c in
  let c := add_equals q "rating" ColRating c in
  do c <- add_bound q "min_words" WordCountGe c;
  add_bound q "max_words" WordCountLe c.

(** The columns [search_stories] selects. *)
Record search_row : Type := mkSearchRow {
  sr_Title : option string;
  sr_Author : option string;
  sr_Category : option string;
  sr_Genre : option string;
  sr_Language : option string;
  sr_Status : option string;
  sr_word_count : option Z;
  sr_chapter_count : option Z;
  sr_Rating : option string;
  sr_Updated : option string;
  sr_rowid : Z
}.

Definition select_columns (r : story) : search_row :=
  {| sr_Title := Title r; sr_Author := Author r; sr_Category := Category r;
     sr_Genre := Genre r; sr_Language := Language r; sr_Status := Status r;
     sr_word_count := word_count r; sr_chapter_count := chapter_count r;
     sr_Rating := Rating r; sr_Updated := Updated r; sr_rowid := rowid r |}.

(** [ORDER BY Updated DESC] *)
Definition by_updated_desc (rows : table) : table :=
  Sql.order_by_desc (fun x y => Sql.text_lt (Updated x) (Updated y)) rows.

(** The integers of [params] that come from the conditions. *)
Definition integer_params (conds : list condition) : list Z :=
  flat_map
    (fun c =>
       match c with
       | WordCountGe n | WordCountLe n => n :: nil
       | Like _ _ | Equals _ _ => nil
       end) conds.

Definition search_stories (db : table) (q : gmap string string) (page per_page : Z)
    : Py.result (list search_row * Z) :=
  do conds <- where_conditions q;
  do _ <- Sql.bind (integer_params conds ++ per_page :: (page - 1) * per_page :: nil);
  let results :=
    map select_columns
      (Sql.limit_offset per_page ((page - 1) * per_page)
         (by_updated_desc (Sql.where_ (eval_where conds) db))) in
  let total_count := Sql.count_star (Sql.where_ (eval_where conds) db) in
  Py.Ok (results, total_count).

End Utils.

(** ** The request parameters shared by [app/api.py] and [app/routes.py] *)

Module Request.

Definition filter_keys : list string :=
  "title" :: "author" :: "category" :: "genre" :: "language" :: "status"
  :: "rating" :: "min_words" :: "max_words" :: nil.

(** [request.args.get(key, '').strip()] *)
Definition stripped (args : gmap string string) (key : string) : string :=
  Py.strip (default "" (args !! key)).

(** The entries of [keys] whose stripped value is not empty:
    [{k: v for k, v in query_params.items() if v}]. *)
Definition collect (args : gmap string string) (keys : list string)
    : gmap string string :=
  fold_right
    (fun k q => if Py.truthy (stripped args k) then <[k := stripped args k]> q else q)
    ∅ keys.

(** The dictionary of the nine filter keys, cleaned of its empty values. *)
Definition query_params (args : gmap string string) : gmap string string :=
  collect args filter_keys.

(** Truth value of a [dict]: only the empty one is falsy. *)
Definition nonempty (q : gmap string string) : bool :=
  match map_to_list q with
  | nil => false
  | _ :: _ => true
  end.

End Request.

(** ** [app/api.py]: the JSON endpoints *)

Module Api.

(** [jsonify({'success': True, ...})] or [jsonify({'success': False,
    'error': msg}), 500]. *)
Inductive response (A : Type) : Type :=
| Success (body : A)
| Failure (status : Z) (error : string).

Arguments Success {A} body.
Arguments Failure {A} status error.

(** [try: ... except Exception: ... 500] *)
Definition guarded {A : Type} (error : string) (r : Py.result A) : response A :=
  match r with
  | Py.Ok body => Success body
  | Py.Raise _ => Failure 500 error
  end.

Record author_entry : Type := mkAuthorEntry {
  name : string;
  story_count : Z;
  avg_words : Z;
  total_words : Z
}.

Definition author_entry_of (row : Utils.author_row) : author_entry :=
  {| name := Utils.ar_author row;
     story_count := Utils.ar_story_count row;
     avg_words := Utils.int_or_zero (Utils.ar_avg_words row);
     total_words := default 0 (Utils.ar_total_words row) |}.

Definition api_author_stats (db : Utils.table) (args : gmap string string)
    : response (list author_entry) :=
  guarded "Failed to fetch author statistics"
    (do limit <- Py.int_arg args "limit" 10;
     do _ <- Sql.bind (limit :: nil);
     Py.Ok (map author_entry_of (Utils.get_top_authors db limit))).

Definition api_basic_stats (db : Utils.table) : response Utils.basic_stats :=
  Success (Utils.get_basic_stats db).

Record pagination : Type := mkPagination {
  page : Z;
  per_page : Z;
  total_count : Z;
  total_pages : Z
}.

Record search_body : Type := mkSearchBody {
  data : list Utils.search_row;
  pages : pagination
}.

Definition api_search (db : Utils.table) (args : gmap string string)
    : response search_body :=
  guarded "Search failed"
    (let query_params := Request.query_params args in
     do page <- Py.int_arg args "page" 1;
     do requested <- Py.int_arg args "per_page" 50;
     let per_page := Z.min requested 100 in
     do found <- Utils.search_stories db query_params page per_page;
     do total_pages <- Py.floor_div (snd found + per_page - 1) per_page;
     Py.Ok {| data := fst found;
              pages := {| page := page; per_page := per_page;
                          total_count := snd found;
                          total_pages := total_pages |} |}).

End Api.

(** ** [app/routes.py]: the HTML pages *)

Module Routes.

Record pagination_info : Type := mkPaginationInfo {
  page : Z;
  per_page : Z;
  total_count : Z;
  total_pages : Z;
  has_prev : bool;
  has_next : bool;
  prev_num : option Z;
  next_num : option Z
}.

(** What the view hands to [render_template], or the 500 page. *)
Inductive rendering : Type :=
| Rendered (results : list Utils.search_row) (pagination : option pagination_info)
| Error500.

Definition guarded (r : Py.result (list Utils.search_row * option pagination_info))
    : rendering :=
  match r with
  | Py.Ok (results, pagination) => Rendered results pagination
  | Py.Raise _ => Error500
  end.

Definition paginate (page per_page total_count : Z) : Py.result pagination_info :=
  do total_pages <- Py.ceil_div total_count per_page;
  let has_prev := 1 <? page in
  let has_next := page <? total_pages in
  Py.Ok {| page := page; per_page := per_page; total_count := total_count;
           total_pages := total_pages; has_prev := has_prev; has_next := has_next;
           prev_num := if has_prev then Some (page - 1) else None;
           next_num := if has_next then Some (page + 1) else None |}.

Definition search (db : Utils.table) (args : gmap string string) : rendering :=
  guarded
    (let query_params := Request.query_params args in
     do page <- Py.int_arg args "page" 1;
     do per_page <- Py.int_arg args "per_page" 50;
     if Request.nonempty query_params
        || match Py.get_truthy args "show_all" with Some _ => true | None => false end
     then
       do found <- Utils.search_stories db query_params page per_page;
       do info <- paginate page per_page (snd found);
       Py.Ok (fst found, Some info)
     else Py.Ok (nil, None)).

Definition browse (db : Utils.table) (args : gmap string string) : rendering :=
  guarded
    (do page <- Py.int_arg args "page" 1;
     let per_page := 100 in
     do found <- Utils.search_stories db ∅ page per_page;
     do info <- paginate page per_page (snd found);
     Py.Ok (fst found, Some info)).

End Routes.

(** ** [app/db_indexes.py]: the index manager *)

Module DbIndexes.

(** *** The schema the manager reads and writes *)

(** A row of [sqlite_master] with [type='index']. *)
Record index_row : Type := mkIndexRow {
  ix_name : string;
  ix_tbl_name : string
}.

(** What the manager can observe of the database file: the columns of
    [metadata_full] and the indexes of the whole file, whatever table they
    are on. *)
Record database : Type := mkDatabase {
  columns : list string;
  master : list index_row
}.

Inductive sql_error : Type :=
| NoSuchColumn (column : string)
| SyntaxError (near : string).

(** An indexed column with its [COLLATE NOCASE] and [DESC] marks. *)
Record indexed_column : Type := mkIndexedColumn {
  ic_column : string;
  ic_nocase : bool;
  ic_desc : bool
}.

Definition plain (c : string) : indexed_column := mkIndexedColumn c false false.
Definition nocase (c : string) : indexed_column := mkIndexedColumn c true false.
Definition desc (c : string) : indexed_column := mkIndexedColumn c false true.

(** [CREATE INDEX IF NOT EXISTS <ci_name> ON metadata_full(<ci_columns>)],
    with a [WHERE] clause that keeps the rows where [c] is neither NULL
    nor empty when [ci_non_empty] is [Some c]. *)
Record create_index : Type := mkCreateIndex {
  ci_name : string;
  ci_columns : list indexed_column;
  ci_non_empty : option string
}.

Definition has_index (n : string) (db : database) : bool :=
  existsb (fun r => Sql.name_eqb (ix_name r) n) (master db).

Definition has_column (db : database) (c : string) : bool :=
  existsb (fun k => Sql.name_eqb k c) (columns db).

Definition columns_used (stmt : create_index) : list string :=
  map ic_column (ci_columns stmt) ++
  match ci_non_empty stmt with
  | Some c => c :: nil
  | None => nil
  end.

(** Running the statement. An index of that name anywhere in the file makes
    it do nothing; otherwise every column must exist and the index is
    added to [metadata_full]. *)
Definition execute_create (stmt : create_index) (db : database)
    : database + sql_error :=
  if has_index (ci_name stmt) db then inl db
  else
    match List.find (fun c => negb (has_column db c)) (columns_used stmt) with
    | Some c => inr (NoSuchColumn c)
    | None =>
        inl {| columns := columns db;
               master := master db ++ mkIndexRow (ci_name stmt) "metadata_full" :: nil |}
    end.

(** [DROP INDEX IF EXISTS <text>] where [text] is an index name pasted into
    the statement without quotes. [bare] tells whether SQLite reads the
    text back as that one name; when it does not the statement is
    rejected. *)
Definition execute_drop (bare : string -> bool) (text : string) (db : database)
    : database + sql_error :=
  if bare text then
    inl {| columns := columns db;
           master := List.filter (fun r => negb (Sql.name_eqb (ix_name r) text)) (master db) |}
  else inr (SyntaxError text).

(** *** [DatabaseIndexer] *)

Record index_config : Type := mkIndexConfig {
  name : string;
  sql : create_index;
  description : string
}.

Definition entry (n : string) (cols : list indexed_column) (d : string) : index_config :=
  mkIndexConfig n (mkCreateIndex n cols None) d.

Definition partial_entry (n c d : string) : index_config :=
  mkIndexConfig n (mkCreateIndex n (plain c :: nil) (Some c)) d.

(** [self.indexes] *)
Definition indexes : list index_config :=
  entry "idx_author" (nocase "Author" :: nil)
    "Fast author searches and author pages" ::
  entry "idx_category" (nocase "Category" :: nil)
    "Fast fandom/category searches" ::
  entry "idx_language" (plain "Language" :: nil)
    "Fast language filtering" ::
  entry "idx_status" (plain "Status" :: nil)
    "Fast completion status filtering" ::
  entry "idx_rating" (plain "Rating" :: nil)
    "Fast rating filtering" ::
  entry "idx_word_count" (plain "word_count" :: nil)
    "Fast word count range searches" ::
  entry "idx_chapter_count" (plain "chapter_count" :: nil)
    "Fast chapter count filtering" ::
  entry "idx_updated" (desc "Updated" :: nil)
    "Fast ordering by update date (newest first)" ::
  entry "idx_published" (desc "Published" :: nil)
    "Fast ordering by publication date" ::
  entry "idx_title_text" (nocase "Title" :: nil)
    "Improved title searches (case insensitive)" ::
  entry "idx_genre_text" (nocase "Genre" :: nil)
    "Improved genre searches" ::
  entry "idx_category_status" (plain "Category" :: plain "Status" :: nil)
    "Fast fandom + completion status searches" ::
  entry "idx_author_updated" (plain "Author" :: desc "Updated" :: nil)
    "Fast author searches ordered by recent updates" ::
  entry "idx_category_wordcount" (plain "Category" :: desc "word_count" :: nil)
    "Fast fandom searches ordered by word count" ::
  entry "idx_language_status" (plain "Language" :: plain "Status" :: nil)
    "Fast language + status combination searches" ::
  entry "idx_rating_wordcount" (plain "Rating" :: plain "word_count" :: nil)
    "Fast rating + word count searches" ::
  partial_entry "idx_author_count" "Author"
    "Fast author statistics and top author queries" ::
  partial_entry "idx_category_count" "Category"
    "Fast fandom statistics and top fandom queries" ::
  entry "idx_search_filter"
    (plain "Language" :: plain "Status" :: plain "Rating" :: plain "word_count" :: nil)
    "Optimized for multi-filter searches" ::
  nil.

(** [check_existing_indexes]: [WHERE type='index' AND
    tbl_name='metadata_full' AND name NOT LIKE 'sqlite_%'] *)
Definition listed (r : index_row) : bool :=
  String.eqb (ix_tbl_name r) "metadata_full" && negb (Sql.like "sqlite_%" (ix_name r)).

Definition check_existing_indexes (db : database) : list string :=
  map ix_name (List.filter listed (master db)).

(** [f"Failed to create {index_name}: {e}"], kept as its two parts. *)
Record failure : Type := mkFailure {
  failed : string;
  cause : sql_error
}.

Record create_results : Type := mkCreateResults {
  created : list string;
  skipped : list string;
  create_errors : list failure
}.

(** [index_name in existing_indexes] *)
Definition contains (names : list string) (n : string) : bool :=
  existsb (String.eqb n) names.

(** One turn of the loop over [self.indexes]. *)
Definition create_step (existing : list string) (force : bool)
    (st : database * create_results) (cfg : index_config)
    : database * create_results :=
  let (db, res) := st in
  if contains existing (name cfg) && negb force then
    (db, {| created := created res;
            skipped := skipped res ++ name cfg :: nil;
            create_errors := create_errors res |})
  else
    match execute_create (sql cfg) db with
    | inl db' =>
        (db', {| created := created res ++ name cfg :: nil;
                 skipped := skipped res;
                 create_errors := create_errors res |})
    | inr e =>
        (db, {| created := created res;
                skipped := skipped res;
                create_errors := create_errors res ++ mkFailure (name cfg) e :: nil |})
    end.

Definition create_loop (existing : list string) (force : bool)
    (cfgs : list index_config) (st : database * create_results)
    : database * create_results :=
  fold_left (create_step existing force) cfgs st.

(** [create_indexes]. The closing [ANALYZE metadata_full] changes no
    index. *)
Definition create_indexes (db : database) (force : bool) : database * create_results :=
  let existing_indexes := check_existing_indexes db in
  create_loop existing_indexes force indexes (db, mkCreateResults nil nil nil).

Record remove_results : Type := mkRemoveResults {
  removed : list string;
  remove_errors : list failure
}.

Definition remove_step (bare : string -> bool) (st : database * remove_results)
    (index_name : string) : database * remove_results :=
  let (db, res) := st in
  match execute_drop bare index_name db with
  | inl db' =>
      (db', {| removed := removed res ++ index_name :: nil;
               remove_errors := remove_errors res |})
  | inr e =>
      (db, {| removed := removed res;
              remove_errors := remove_errors res ++ mkFailure index_name e :: nil |})
  end.

(** [remove_indexes] *)
Definition remove_indexes (bare : string -> bool) (db : database) (confirm : bool)
    : database * remove_results :=
  if negb confirm then (db, mkRemoveResults nil nil)
  else
    let existing_indexes := check_existing_indexes db in
    match existing_indexes with
    | nil => (db, mkRemoveResults nil nil)
    | _ :: _ =>
        fold_left (remove_step bare) existing_indexes (db, mkRemoveResults nil nil)
    end.




End DbIndexes.

(** ** The vocabulary of the properties *)

Module Spec.

Import Utils DbIndexes.

(** The word counts that are present, in storage order. *)
Definition present_counts (db : table) : list Z :=
  flat_map (fun r => match word_count r with Some w => w :: nil | None => nil end) db.

(** The present word counts of the records of one author. *)
Definition words_of (db : table) (a : string) : list Z :=
  flat_map
    (fun r =>
       match Author r, word_count r with
       | Some b, Some w => if String.eqb b a then w :: nil else nil
       | _, _ => nil
       end) db.

Definition positive (ws : list Z) : list Z := List.filter (fun w => 0 <? w) ws.

Definition sum_or_null (ws : list Z) : option Z :=
  match ws with
  | nil => None
  | _ :: _ => Some (fold_right Z.add 0 ws)
  end.

(** The arithmetic mean, absent when there is nothing to average. *)
Definition mean (ws : list Z) : option Q :=
  match ws with
  | nil => None
  | _ :: _ => Some (Qmake (fold_right Z.add 0 ws) (Pos.of_nat (length ws)))
  end.

(** A caller that asks for one page and keeps its records. *)
Definition fetch (db : table) (q : gmap string string) (per_page page : Z)
    : list search_row :=
  match search_stories db q page per_page with
  | Py.Ok (results, _) => results
  | Py.Raise _ => nil
  end.

Definition page_numbers (total_pages : Z) : list Z :=
  map Z.of_nat (seq 1 (Z.to_nat total_pages)).

(** The records of pages 1 to [total_pages], one after the other. *)
Definition all_pages (db : table) (q : gmap string string) (per_page total_pages : Z)
    : list search_row :=
  concat (map (fetch db q per_page) (page_numbers total_pages)).




(** What a view rendered, and what an endpoint answered. *)
Definition rendered_results (r : Routes.rendering) : list search_row :=
  match r with
  | Routes.Rendered results _ => results
  | Routes.Error500 => nil
  end.

Definition answered_data (r : Api.response Api.search_body) : list search_row :=
  match r with
  | Api.Success body => Api.data body
  | Api.Failure _ _ => nil
  end.

End Spec.

(** ** Sample data *)

Module Examples.

Import Utils DbIndexes.

Definition story_by (id : Z) (author : option string) (words : option Z)
    (updated : string) : story :=
  mkStory id (Some "Untitled") author (Some "Harry Potter") (Some "Drama")
    (Some "English") (Some "Completed") (Some "T") words (Some 1)
    (Some updated) (Some updated).

(** Two stories by Jane, one of them without a word count, and one story
    without an author. *)
Definition jane_db : table :=
  story_by 1 (Some "Jane") (Some 1000) "2021-03-01" ::
  story_by 2 (Some "Jane") None "2022-07-15" ::
  story_by 3 (Some "") (Some 500) "2020-11-30" :: nil.

(** Two stories by Jane, one of them with a word count of zero. *)
Definition zero_db : table :=
  story_by 1 (Some "Jane") (Some 1000) "2021-03-01" ::
  story_by 2 (Some "Jane") (Some 0) "2022-07-15" :: nil.

(** No story has a word count. *)
Definition blank_db : table :=
  story_by 1 (Some "Jane") None "2021-03-01" ::
  story_by 2 (Some "Ann") None "2022-07-15" :: nil.

(** 101 stories. *)
Definition many_stories : table :=
  map (fun i => story_by (Z.of_nat i) (Some "Jane") (Some (Z.of_nat i)) "2021-03-01")
      (seq 1 101).

Definition harry_potter : gmap string string :=
  <["category" := "Harry Potter"]> ∅.

Definition show_all (per_page : string) : gmap string string :=
  <["show_all" := "1"]> (<["per_page" := per_page]> ∅).

Definition metadata_columns : list string :=
  "Title" :: "Author" :: "Category" :: "Genre" :: "Language" :: "Status"
  :: "Rating" :: "word_count" :: "chapter_count" :: "Updated" :: "Published" :: nil.

(** One catalog index, one index somebody else created on the table, and
    one index SQLite made for itself. *)
Definition foreign_db : database :=
  mkDatabase metadata_columns
    (mkIndexRow "idx_author" "metadata_full" ::
     mkIndexRow "legacy_title_lookup" "metadata_full" ::
     mkIndexRow "sqlite_autoindex_metadata_full_1" "metadata_full" :: nil).



End Examples.

(** * Properties *)

Import Utils DbIndexes Spec.

(** ** Ordering, windows and WHERE *)

Section SqlFacts.

Context {A : Type}.

Lemma insert_desc_perm (lt : A -> A -> bool) (x : A) (rows : list A) :
  Permutation (Sql.insert_desc lt x rows) (x :: rows).
Proof.
  induction rows as [|y rows IH]; simpl.
  - reflexivity.
  - destruct (lt x y).
    + rewrite IH. apply perm_swap.
    + reflexivity.
Qed.

Lemma order_by_desc_perm (lt : A -> A -> bool) (rows : list A) :
  Permutation (Sql.order_by_desc lt rows) rows.
Proof.
  induction rows as [|x rows IH]; simpl.
  - reflexivity.
  - rewrite insert_desc_perm. now constructor.
Qed.

Lemma order_by_desc_length (lt : A -> A -> bool) (rows : list A) :
  length (Sql.order_by_desc lt rows) = length rows.
Proof. apply Permutation_length, order_by_desc_perm. Qed.

Lemma in_order_by_desc (lt : A -> A -> bool) (rows : list A) (x : A) :
  In x (Sql.order_by_desc lt rows) <-> In x rows.
Proof.
  split; apply Permutation_in;
    [apply order_by_desc_perm | symmetry; apply order_by_desc_perm].
Qed.

Lemma in_limit_offset (l o : Z) (rows : list A) (x : A) :
  In x (Sql.limit_offset l o rows) -> In x rows.
Proof.
  unfold Sql.limit_offset. intros H.
  rewrite <- (firstn_skipn (Z.to_nat o) rows). apply in_or_app. right.
  destruct (l <? 0); [assumption|].
  rewrite <- (firstn_skipn (Z.to_nat l) (skipn (Z.to_nat o) rows)).
  apply in_or_app. now left.
Qed.

Lemma limit_offset_nonpos (l o : Z) (rows : list A) :
  o <= 0 -> Sql.limit_offset l o rows = Sql.limit_offset l 0 rows.
Proof.
  intros Ho. unfold Sql.limit_offset.
  replace (Z.to_nat o) with 0%nat by lia. reflexivity.
Qed.

Lemma limit_offset_nil (l o : Z) : Sql.limit_offset l o (@nil A) = nil.
Proof.
  unfold Sql.limit_offset. rewrite skipn_nil.
  destruct (l <? 0); [reflexivity | apply firstn_nil].
Qed.

Lemma in_where (p : A -> option bool) (rows : list A) (x : A) :
  In x (Sql.where_ p rows) <-> In x rows /\ p x = Some true.
Proof.
  unfold Sql.where_. rewrite filter_In. unfold Sql.holds.
  destruct (p x) as [[|]|]; intuition congruence.
Qed.

Lemma where_nil (p : A -> option bool) (rows : list A) :
  (forall r, In r rows -> p r <> Some true) -> Sql.where_ p rows = nil.
Proof.
  intros H. induction rows as [|r rows IH]; simpl; [reflexivity|].
  unfold Sql.holds. destruct (p r) as [[|]|] eqn:E.
  - exfalso. apply (H r); [now left | assumption].
  - apply IH. intros; apply H; now right.
  - apply IH. intros; apply H; now right.
Qed.

Lemma firstn_plus (a b : nat) (l : list A) :
  firstn (a + b) l = firstn a l ++ firstn b (skipn a l).
Proof.
  revert l. induction a as [|a IH]; intros l; simpl; [reflexivity|].
  destruct l as [|x l]; simpl.
  - now rewrite firstn_nil.
  - now rewrite IH.
Qed.

(** Consecutive windows of [k] rows, laid end to end, are a prefix. *)
Lemma windows_concat (k n : nat) (l : list A) :
  concat (map (fun i => firstn k (skipn (i * k) l)) (seq 0 n)) = firstn (n * k) l.
Proof.
  induction n as [|n IH].
  - reflexivity.
  - rewrite seq_S, map_app, concat_app, IH. simpl.
    rewrite app_nil_r, <- firstn_plus. f_equal. lia.
Qed.



Lemma in_non_null (vs : list (option A)) (x : A) :
  In x (Sql.non_null vs) <-> In (Some x) vs.
Proof.
  unfold Sql.non_null. rewrite in_flat_map. split.
  - intros [[y|] [Hy Hx]]; simpl in Hx; [|contradiction].
    destruct Hx as [<-|[]]. assumption.
  - intros H. exists (Some x). split; [assumption | now left].
Qed.

End SqlFacts.

Lemma and3_true (a b : option bool) :
  Sql.and3 a b = Some true <-> a = Some true /\ b = Some true.
Proof. destruct a as [[|]|], b as [[|]|]; simpl; intuition congruence. Qed.

Lemma avg_mean (vs : list (option Z)) : Sql.avg vs = mean (Sql.non_null vs).
Proof. unfold Sql.avg, mean. now destruct (Sql.non_null vs). Qed.

Lemma sum_sum_or_null (vs : list (option Z)) :
  Sql.sum vs = sum_or_null (Sql.non_null vs).
Proof. unfold Sql.sum, sum_or_null. now destruct (Sql.non_null vs). Qed.





(** ** [search_stories]: the filter *)

Example parse_int_samples :
  Py.parse_int "abc" = None /\ Py.parse_int "1.5" = None /\
  Py.parse_int "" = None /\ Py.parse_int "12_" = None /\
  Py.parse_int "-12" = Some (-12) /\ Py.parse_int " +007 " = Some 7 /\
  Py.parse_int "1_000" = Some 1000.
Proof. repeat split. Qed.

Example like_samples :
  Sql.like "%harry%" "The Harry Potter Saga" = true /\
  Sql.like "%h_rry%" "Harry" = true /\
  Sql.like "%harry%" "Hermione" = false /\
  Sql.like "sqlite_%" "sqlite_autoindex_metadata_full_1" = true /\
  Sql.like "sqlite_%" "idx_author" = false.
Proof. repeat split. Qed.

Lemma parse_int_truthy (s : string) (n : Z) :
  Py.parse_int s = Some n -> Py.truthy s = true.
Proof. destruct s; [discriminate | reflexivity]. Qed.

Lemma add_bound_malformed (q : gmap string string) (key s : string)
    (mk : Z -> condition) (conds : list condition) :
  q !! key = Some s -> Py.truthy s = true -> Py.parse_int s = None ->
  add_bound q key mk conds = Py.Raise (Py.ValueError s).
Proof.
  intros Hq Ht Hp. unfold add_bound, Py.get_truthy, Py.int.
  now rewrite Hq, Ht, Hp.
Qed.

Lemma add_bound_parsed (q : gmap string string) (key s : string) (n : Z)
    (mk : Z -> condition) (conds : list condition) :
  q !! key = Some s -> Py.parse_int s = Some n ->
  add_bound q key mk conds = Py.Ok (conds ++ mk n :: nil).
Proof.
  intros Hq Hp. unfold add_bound, Py.get_truthy, Py.int.
  now rewrite Hq, (parse_int_truthy s n Hp), Hp.
Qed.

Lemma add_bound_raises (q : gmap string string) (key : string)
    (mk : Z -> condition) (conds : list condition) (e : Py.exn) :
  add_bound q key mk conds = Py.Raise e -> exists literal, e = Py.ValueError literal.
Proof.
  unfold add_bound, Py.int. destruct (Py.get_truthy q key) as [v|]; [|discriminate].
  destruct (Py.parse_int v); simpl; [discriminate|].
  intros [= <-]. now exists v.
Qed.

Lemma eval_where_true (conds : list condition) (r : story) :
  eval_where conds r = Some true <->
  List.Forall (fun c => eval_condition c r = Some true) conds.
Proof.
  induction conds as [|c conds IH]; simpl.
  - split; [constructor | reflexivity].
  - rewrite and3_true, IH. split.
    + intros [? ?]. now constructor.
    + intros H. inversion H; subst. now split.
Qed.

(** *** Binding the parameters *)

Lemma int64_range (n : Z) : Sql.int64 n = true <-> - 2 ^ 63 <= n <= 2 ^ 63 - 1.
Proof. unfold Sql.int64. rewrite andb_true_iff, !Z.leb_le. reflexivity. Qed.

Lemma integer_params_app (c d : list condition) :
  integer_params (c ++ d) = integer_params c ++ integer_params d.
Proof. unfold integer_params. apply flat_map_app. Qed.

Lemma integer_params_like (q : gmap string string) (key : string) (col : text_column)
    (c : list condition) :
  integer_params (add_like q key col c) = integer_params c.
Proof.
  unfold add_like. destruct (Py.get_truthy q key); [|reflexivity].
  rewrite integer_params_app. apply app_nil_r.
Qed.

Lemma integer_params_equals (q : gmap string string) (key : string) (col : text_column)
    (c : list condition) :
  integer_params (add_equals q key col c) = integer_params c.
Proof.
  unfold add_equals. destruct (Py.get_truthy q key); [|reflexivity].
  rewrite integer_params_app. apply app_nil_r.
Qed.

(** With every integer parameter in range the two queries run. *)
Lemma search_stories_bound (db : table) (q : gmap string string)
    (conds : list condition) (page per_page : Z) :
  where_conditions q = Py.Ok conds ->
  forallb Sql.int64 (integer_params conds) = true ->
  Sql.int64 per_page = true -> Sql.int64 ((page - 1) * per_page) = true ->
  search_stories db q page per_page =
  Py.Ok (map select_columns
           (Sql.limit_offset per_page ((page - 1) * per_page)
              (by_updated_desc (Sql.where_ (eval_where conds) db))),
         Sql.count_star (Sql.where_ (eval_where conds) db)).
Proof.
  intros Hq Hc Hp Ho. unfold search_stories, Sql.bind. rewrite Hq. cbn [Py.bind].
  rewrite forallb_app, Hc. cbn [forallb]. rewrite Hp, Ho. reflexivity.
Qed.

(** A bound, a page size or an offset out of range raises [OverflowError]
    before any row is read. *)
Lemma search_stories_overflow (db : table) (q : gmap string string)
    (conds : list condition) (page per_page : Z) :
  where_conditions q = Py.Ok conds ->
  forallb Sql.int64 (integer_params conds) && Sql.int64 per_page
  && Sql.int64 ((page - 1) * per_page) = false ->
  search_stories db q page per_page = Py.Raise Py.OverflowError.
Proof.
  intros Hq Hout. unfold search_stories, Sql.bind. rewrite Hq. cbn [Py.bind].
  rewrite forallb_app. cbn [forallb]. rewrite andb_true_r, andb_assoc, Hout.
  reflexivity.
Qed.

Lemma where_conditions_bounds (q : gmap string string) (smin smax : string) (lo hi : Z) :
  q !! "min_words" = Some smin -> q !! "max_words" = Some smax ->
  Py.parse_int smin = Some lo -> Py.parse_int smax = Some hi ->
  exists conds,
    integer_params conds = nil /\
    where_conditions q = Py.Ok ((conds ++ WordCountGe lo :: nil) ++ WordCountLe hi :: nil).
Proof.
  intros Hmin Hmax Hlo Hhi. unfold where_conditions.
  set (c := add_equals q "rating" _ _). exists c. split.
  - unfold c. now rewrite !integer_params_equals, !integer_params_like.
  - rewrite (add_bound_parsed q _ smin lo) by assumption. simpl.
    now rewrite (add_bound_parsed q _ smax hi) by assumption.
Qed.

Lemma bounds_true (conds : list condition) (lo hi : Z) (r : story) :
  eval_where ((conds ++ WordCountGe lo :: nil) ++ WordCountLe hi :: nil) r = Some true ->
  exists w, word_count r = Some w /\ lo <= w <= hi.
Proof.
  rewrite eval_where_true, !List.Forall_app. intros [[_ Hge] Hle].
  inversion Hge as [|? ? Hge' _]; subst. inversion Hle as [|? ? Hle' _]; subst.
  simpl in Hge', Hle'. unfold Sql.ge3, Sql.le3 in *.
  destruct (word_count r) as [w|]; [|discriminate]. simpl in *.
  exists w. split; [reflexivity|].
  injection Hge' as Hge'. injection Hle' as Hle'. lia.
Qed.

Lemma where_conditions_malformed (q : gmap string string) (key s : string) :
  key = "min_words" \/ key = "max_words" ->
  q !! key = Some s -> Py.truthy s = true -> Py.parse_int s = None ->
  exists literal, where_conditions q = Py.Raise (Py.ValueError literal).
Proof.
  intros Hkey Hq Ht Hp. unfold where_conditions.
  set (c := add_equals q "rating" _ _).
  destruct Hkey as [-> | ->].
  - rewrite (add_bound_malformed q _ s) by assumption. simpl. now exists s.
  - destruct (add_bound q "min_words" WordCountGe c) as [c'|e] eqn:Hmin; simpl.
    + rewrite (add_bound_malformed q _ s) by assumption. now exists s.
    + destruct (add_bound_raises _ _ _ _ _ Hmin) as [lit ->]. now exists lit.
Qed.

(** C4. When [min_words] or [max_words] is present, not blank, and not
    something [int()] accepts, [search_stories] raises [ValueError]: the
    bound is not ignored and no page, empty or not, is returned. *)
Theorem search_stories_malformed_bound (db : table) (q : gmap string string)
    (page per_page : Z) (key s : string) :
  key = "min_words" \/ key = "max_words" ->
  q !! key = Some s -> Py.truthy s = true -> Py.parse_int s = None ->
  exists literal,
    search_stories db q page per_page = Py.Raise (Py.ValueError literal).
Proof.
  intros Hkey Hq Ht Hp. unfold search_stories.
  destruct (where_conditions_malformed q key s Hkey Hq Ht Hp) as [lit ->].
  now exists lit.
Qed.

Lemma search_stories_malformed_bound_witness :
  exists literal,
    search_stories Examples.jane_db (<["min_words" := "abc"]> Examples.harry_potter) 1 10
    = Py.Raise (Py.ValueError literal).
Proof.
  apply (search_stories_malformed_bound Examples.jane_db _ 1 10 "min_words" "abc").
  - now left.
  - vm_compute. reflexivity.
  - reflexivity.
  - reflexivity.
Defined.

(** A numeric bound that does not fit in 64 bits is not compared with any
    word count: binding it raises [OverflowError], which both views answer
    with a 500, also when [min_words > max_words]. *)
Lemma search_stories_huge_bound_raises :
  let q := <["min_words" := "100000000000000000000"]> (<["max_words" := "5"]> ∅) in
  Py.parse_int "100000000000000000000" = Some (10 ^ 20) /\
  Py.parse_int "5" = Some 5 /\ 10 ^ 20 > 5 /\
  search_stories Examples.jane_db q 1 10 = Py.Raise Py.OverflowError /\
  Routes.search Examples.jane_db q = Routes.Error500 /\
  Api.api_search Examples.jane_db q = Api.Failure 500 "Search failed".
Proof. repeat split; vm_compute; reflexivity. Qed.

(** C6, as the code has it. With numeric [min_words] and [max_words] and
    a page request, all within the 64-bit range of SQLite's integers,
    every record of the page has a word count between the two bounds, both
    included, when [min_words <= max_words]; when [min_words > max_words]
    the page is empty, [total_count] is 0 and nothing is raised. *)
Theorem search_stories_word_range (db : table) (q : gmap string string)
    (page per_page : Z) (smin smax : string) (lo hi : Z) :
  q !! "min_words" = Some smin -> q !! "max_words" = Some smax ->
  Py.parse_int smin = Some lo -> Py.parse_int smax = Some hi ->
  Sql.int64 lo = true -> Sql.int64 hi = true ->
  Sql.int64 per_page = true -> Sql.int64 ((page - 1) * per_page) = true ->
  exists rows total_count,
    search_stories db q page per_page = Py.Ok (rows, total_count) /\
    (lo <= hi ->
     forall r, In r rows -> exists w, sr_word_count r = Some w /\ lo <= w <= hi) /\
    (lo > hi -> rows = nil /\ total_count = 0).
Proof.
  intros Hmin Hmax Hlo Hhi Rlo Rhi Rper Roff.
  destruct (where_conditions_bounds q smin smax lo hi Hmin Hmax Hlo Hhi)
    as [c [Hints Hc]].
  rewrite (search_stories_bound db q _ page per_page Hc); try assumption;
    [|rewrite !integer_params_app, Hints; cbn; now rewrite Rlo, Rhi].
  eexists _, _. split; [reflexivity|]. split.
  - intros _ r' Hr'. apply in_map_iff in Hr' as [r [<- Hr]].
    apply in_limit_offset in Hr. apply in_order_by_desc in Hr.
    apply in_where in Hr as [_ Hr]. simpl.
    exact (bounds_true c lo hi r Hr).
  - intros Hgt.
    assert (Hnone : Sql.where_
              (eval_where ((c ++ WordCountGe lo :: nil) ++ WordCountLe hi :: nil)) db = nil).
    { apply where_nil. intros r _ Hr.
      destruct (bounds_true c lo hi r Hr) as [w [_ Hw]]. lia. }
    rewrite Hnone. unfold by_updated_desc. simpl.
    now rewrite limit_offset_nil.
Qed.

Lemma search_stories_word_range_witness :
  exists rows total_count,
    search_stories Examples.jane_db
      (<["min_words" := "600"]> (<["max_words" := "2000"]> ∅)) 1 10
    = Py.Ok (rows, total_count) /\
    (600 <= 2000 ->
     forall r, In r rows -> exists w, sr_word_count r = Some w /\ 600 <= w <= 2000) /\
    (600 > 2000 -> rows = nil /\ total_count = 0).
Proof.
  apply (search_stories_word_range Examples.jane_db _ 1 10 "600" "2000" 600 2000).
  - vm_compute. reflexivity.
  - vm_compute. reflexivity.
  - reflexivity.
  - reflexivity.
  - reflexivity.
  - reflexivity.
  - reflexivity.
  - reflexivity.
Defined.

Example search_word_range_sample :
  option_map (map sr_rowid)
    (match search_stories Examples.jane_db
             (<["min_words" := "600"]> (<["max_words" := "2000"]> ∅)) 1 10 with
     | Py.Ok (rows, _) => Some rows
     | Py.Raise _ => None
     end) = Some (1 :: nil) /\
  search_stories Examples.jane_db
    (<["min_words" := "2000"]> (<["max_words" := "600"]> ∅)) 1 10 = Py.Ok (nil, 0).
Proof. split; vm_compute; reflexivity. Qed.

(** ** [search_stories]: the page window *)

(** Page 0 and page -3 raise nothing: they return the records of page 1,
    through [search_stories] and through the [/browse] view alike. *)
Lemma search_stories_page_zero_is_page_one :
  Py.is_ok (search_stories Examples.jane_db ∅ 0 2) = true /\
  search_stories Examples.jane_db ∅ 0 2 = search_stories Examples.jane_db ∅ 1 2 /\
  search_stories Examples.jane_db ∅ (-3) 2 = search_stories Examples.jane_db ∅ 1 2 /\
  map sr_rowid (rendered_results (Routes.browse Examples.jane_db (<["page" := "0"]> ∅)))
  = 2 :: 1 :: 3 :: nil.
Proof. repeat split; vm_compute; reflexivity. Qed.

(** C3, as the code has it. A page number of 0 or less is not rejected
    as such. With a page size that is not negative, and the offset
    [(page - 1) * per_page] within the 64-bit range of SQLite's integers,
    [search_stories] answers exactly as it does for page 1, an error
    included when the filter or the page size is itself rejected. An
    offset below that range cannot be bound: when the filter parses,
    [OverflowError] is raised. *)
Theorem search_stories_page_not_positive (db : table) (q : gmap string string)
    (page per_page : Z) :
  page <= 0 -> 0 <= per_page ->
  (Sql.int64 ((page - 1) * per_page) = true ->
   search_stories db q page per_page = search_stories db q 1 per_page) /\
  (Sql.int64 ((page - 1) * per_page) = false ->
   forall conds, where_conditions q = Py.Ok conds ->
     search_stories db q page per_page = Py.Raise Py.OverflowError).
Proof.
  intros Hpage Hper. split.
  - intros Hoff. unfold search_stories, Sql.bind.
    destruct (where_conditions q) as [conds|e]; cbn [Py.bind]; [|reflexivity].
    rewrite !forallb_app. cbn [forallb]. rewrite Hoff.
    replace (Sql.int64 ((1 - 1) * per_page)) with true by reflexivity.
    destruct (forallb Sql.int64 (integer_params conds) && (Sql.int64 per_page && (true && true)));
      [|reflexivity].
    rewrite (limit_offset_nonpos per_page ((page - 1) * per_page)) by nia.
    reflexivity.
  - intros Hoff conds Hq. apply (search_stories_overflow db q conds); [assumption|].
    rewrite Hoff. apply andb_false_r.
Qed.

Lemma search_stories_page_not_positive_witness :
  (Sql.int64 ((-1 - 1) * 10) = true ->
   search_stories Examples.jane_db Examples.harry_potter (-1) 10
   = search_stories Examples.jane_db Examples.harry_potter 1 10) /\
  (Sql.int64 ((-1 - 1) * 10) = false ->
   forall conds, where_conditions Examples.harry_potter = Py.Ok conds ->
     search_stories Examples.jane_db Examples.harry_potter (-1) 10
     = Py.Raise Py.OverflowError).
Proof.
  apply (search_stories_page_not_positive Examples.jane_db Examples.harry_potter (-1) 10); lia.
Defined.

(** Page [-10^19] of a page size of 1 is below the range: the request
    fails, where page 1 succeeds. *)
Example search_stories_page_far_below :
  search_stories Examples.jane_db ∅ (- 10 ^ 19) 1 = Py.Raise Py.OverflowError /\
  Py.is_ok (search_stories Examples.jane_db ∅ 1 1) = true /\
  Routes.browse Examples.jane_db (<["page" := "-10000000000000000000"]> ∅)
  = Routes.Error500.
Proof. repeat split; vm_compute; reflexivity. Qed.

(** C2. The HTML view passes [per_page] on as it came: asked for 500
    records a page over 101 stories it renders all 101, and 100 when asked
    for 100. [search_stories] does the same. The JSON endpoint, which cuts
    [per_page] down to 100, answers with 100 records both times. *)
Theorem html_search_page_size_unbounded :
  length (rendered_results (Routes.search Examples.many_stories (Examples.show_all "500")))
  = 101%nat /\
  length (rendered_results (Routes.search Examples.many_stories (Examples.show_all "100")))
  = 100%nat /\
  length (fetch Examples.many_stories ∅ 500 1) = 101%nat /\
  length (fetch Examples.many_stories ∅ 100 1) = 100%nat /\
  length (answered_data (Api.api_search Examples.many_stories (Examples.show_all "500")))
  = 100%nat /\
  length (answered_data (Api.api_search Examples.many_stories (Examples.show_all "100")))
  = 100%nat.
Proof. repeat split; vm_compute; reflexivity. Qed.

(** The first page holds as many records as were asked for, when there are
    that many: nothing in [search_stories] bounds the page size. *)
Lemma first_page_length (db : table) (q : gmap string string)
    (conds : list condition) (per_page : Z) :
  where_conditions q = Py.Ok conds ->
  forallb Sql.int64 (integer_params conds) = true ->
  0 <= per_page -> Sql.int64 per_page = true ->
  length (fetch db q per_page 1)
  = Nat.min (Z.to_nat per_page) (length (Sql.where_ (eval_where conds) db)).
Proof.
  intros Hq Hc Hp Hr. unfold fetch.
  rewrite (search_stories_bound db q conds 1 per_page Hq Hc Hr) by reflexivity.
  unfold Sql.limit_offset. destruct (per_page <? 0) eqn:E; [lia|].
  rewrite length_map. replace (Z.to_nat ((1 - 1) * per_page)) with 0%nat by lia.
  rewrite skipn_O, length_firstn. unfold by_updated_desc.
  now rewrite order_by_desc_length.
Qed.

(** The two ways the views count the pages agree on a page size of 1 or
    more. *)
Lemma ceil_div_floor_div (a b : Z) :
  1 <= b -> Py.ceil_div a b = Py.floor_div (a + b - 1) b.
Proof.
  intros Hb. unfold Py.ceil_div, Py.floor_div.
  destruct (Z.eqb_spec b 0); [lia|]. f_equal.
  apply (Z.div_unique_pos _ _ _ (b - 1 - (- a) mod b)).
  - pose proof (Z.mod_pos_bound (- a) b ltac:(lia)). lia.
  - pose proof (Z.div_mod (- a) b ltac:(lia)). lia.
Qed.

(** ** [search_stories]: all the pages together *)

Lemma pages_reach_the_end (total per_page : Z) :
  0 <= total -> 1 <= per_page ->
  (Z.to_nat total <= Z.to_nat ((total + per_page - 1) / per_page) * Z.to_nat per_page)%nat.
Proof.
  intros Ht Hp.
  pose proof (Z.mul_succ_div_gt (total + per_page - 1) per_page ltac:(lia)) as Hgt.
  assert (0 <= (total + per_page - 1) / per_page) by (apply Z.div_pos; lia).
  nia.
Qed.

Lemma fetch_window (db : table) (q : gmap string string) (conds : list condition)
    (per_page : Z) (i : nat) :
  where_conditions q = Py.Ok conds ->
  forallb Sql.int64 (integer_params conds) = true ->
  1 <= per_page -> Sql.int64 per_page = true ->
  Sql.int64 (Z.of_nat i * per_page) = true ->
  fetch db q per_page (Z.of_nat (S i)) =
  firstn (Z.to_nat per_page)
    (skipn (i * Z.to_nat per_page)
       (map select_columns (by_updated_desc (Sql.where_ (eval_where conds) db)))).
Proof.
  intros Hq Hc Hp Hr Ho. unfold fetch.
  rewrite (search_stories_bound db q conds _ per_page Hq Hc Hr)
    by (now replace (Z.of_nat (S i) - 1) with (Z.of_nat i) by lia).
  unfold Sql.limit_offset.
  destruct (per_page <? 0) eqn:E; [lia|].
  rewrite <- firstn_map, <- skipn_map. do 2 f_equal. nia.
Qed.

(** The offsets of pages 1 to [total_pages] stay below the number of
    matching records. *)
Lemma page_offset_in_range (total per_page page : Z) :
  0 <= total -> Sql.int64 total = true -> 1 <= per_page ->
  1 <= page <= (total + per_page - 1) / per_page ->
  Sql.int64 ((page - 1) * per_page) = true.
Proof.
  intros Ht Hr Hp Hpage. apply int64_range in Hr. apply int64_range.
  pose proof (Z.mul_div_le (total + per_page - 1) per_page ltac:(lia)) as Hle.
  nia.
Qed.

Lemma where_length_le (p : story -> option bool) (db : table) :
  (length (Sql.where_ p db) <= length db)%nat.
Proof. unfold Sql.where_. apply filter_length_le. Qed.

Lemma all_pages_whole (db : table) (q : gmap string string) (conds : list condition)
    (per_page : Z) :
  where_conditions q = Py.Ok conds ->
  forallb Sql.int64 (integer_params conds) = true ->
  1 <= per_page -> Sql.int64 per_page = true ->
  Sql.int64 (Z.of_nat (length db)) = true ->
  let matching := Sql.where_ (eval_where conds) db in
  all_pages db q per_page ((Sql.count_star matching + per_page - 1) / per_page)
  = map select_columns (by_updated_desc matching).
Proof.
  intros Hq Hc Hp Hr Hdb matching. unfold all_pages, page_numbers.
  assert (Hcount : Sql.int64 (Sql.count_star matching) = true).
  { apply int64_range in Hdb. apply int64_range. unfold Sql.count_star.
    pose proof (where_length_le (eval_where conds) db). fold matching in H. lia. }
  rewrite <- seq_shift, !map_map.
  rewrite (map_ext_in _ (fun i => firstn (Z.to_nat per_page)
             (skipn (i * Z.to_nat per_page)
                (map select_columns (by_updated_desc matching)))))
    by (intros i Hi; apply in_seq in Hi;
        apply (fetch_window db q conds per_page i Hq Hc Hp Hr);
        replace (Z.of_nat i * per_page) with ((Z.of_nat (S i) - 1) * per_page) by lia;
        apply (page_offset_in_range (Sql.count_star matching));
        [unfold Sql.count_star; lia | assumption | assumption
        | assert (0 <= (Sql.count_star matching + per_page - 1) / per_page)
            by (apply Z.div_pos; unfold Sql.count_star; lia); lia]).
  rewrite windows_concat. apply firstn_all2.
  rewrite length_map. unfold by_updated_desc. rewrite order_by_desc_length.
  pose proof (pages_reach_the_end (Sql.count_star matching) per_page) as H.
  unfold Sql.count_star in *. rewrite Nat2Z.id in H. apply H; lia.
Qed.

Lemma select_columns_rowid (rows : table) :
  map sr_rowid (map select_columns rows) = map rowid rows.
Proof. rewrite map_map. reflexivity. Qed.

Lemma where_NoDup_rowid (p : story -> option bool) (db : table) :
  List.NoDup (map rowid db) -> List.NoDup (map rowid (Sql.where_ p db)).
Proof.
  induction db as [|r db IH]; simpl; [constructor|].
  rewrite List.NoDup_cons_iff. intros [Hr Hdb].
  destruct (Sql.holds (p r)); simpl; [|now apply IH].
  constructor; [|now apply IH].
  intros Hin. apply Hr. apply in_map_iff in Hin as [r' [E Hr']].
  apply in_map_iff. exists r'. split; [assumption|].
  apply filter_In in Hr'. tauto.
Qed.

(** C5. Take a filter that parses, a page size of 1 or more, bounds and
    page size within the 64-bit range of SQLite's integers, and a table
    of no more rows than that range can number. Every request for one of
    the pages 1 to [total_pages], and every request whose offset is within
    the range, succeeds with the same [total_count], the number of
    matching records counted without any window; pages 1 to [total_pages]
    laid end to end hold [total_count] records, are a rearrangement of the
    matching records (none left out), and repeat no row id when the table
    does not. *)
Theorem search_pages_cover_matches (db : table) (q : gmap string string)
    (conds : list condition) (per_page : Z) :
  where_conditions q = Py.Ok conds -> 1 <= per_page ->
  forallb Sql.int64 (integer_params conds) = true ->
  Sql.int64 per_page = true ->
  Sql.int64 (Z.of_nat (length db)) = true ->
  let matching := Sql.where_ (eval_where conds) db in
  let total_count := Z.of_nat (length matching) in
  let total_pages := (total_count + per_page - 1) / per_page in
  let everything := all_pages db q per_page total_pages in
  (forall page,
      1 <= page <= total_pages \/ Sql.int64 ((page - 1) * per_page) = true ->
      exists rows, search_stories db q page per_page = Py.Ok (rows, total_count)) /\
  Z.of_nat (length everything) = total_count /\
  Permutation everything (map select_columns matching) /\
  (List.NoDup (map rowid db) -> List.NoDup (map sr_rowid everything)).
Proof.
  intros Hq Hp Hc Hr Hdb matching total_count total_pages everything.
  assert (Hall : everything = map select_columns (by_updated_desc matching))
    by (apply (all_pages_whole db q conds per_page Hq Hc Hp Hr Hdb)).
  split; [|rewrite Hall; split; [|split]].
  - intros page Hpage.
    assert (Hoff : Sql.int64 ((page - 1) * per_page) = true).
    { destruct Hpage as [Hpage|Hoff]; [|assumption].
      apply (page_offset_in_range total_count); try assumption; [lia|].
      apply int64_range in Hdb. apply int64_range.
      pose proof (where_length_le (eval_where conds) db). fold matching in H.
      unfold total_count. lia. }
    rewrite (search_stories_bound db q conds page per_page Hq Hc Hr Hoff).
    eexists. reflexivity.
  - rewrite length_map. unfold by_updated_desc. now rewrite order_by_desc_length.
  - apply Permutation_map. apply order_by_desc_perm.
  - intros Hids. rewrite select_columns_rowid.
    apply (Permutation.Permutation_NoDup (l := map rowid matching)).
    + apply Permutation_map. symmetry. apply order_by_desc_perm.
    + now apply where_NoDup_rowid.
Qed.

Lemma search_pages_cover_matches_witness :
  let conds := Like ColCategory "%Harry Potter%" :: nil in
  let matching := Sql.where_ (eval_where conds) Examples.jane_db in
  let total_count := Z.of_nat (length matching) in
  let total_pages := (total_count + 2 - 1) / 2 in
  let everything := all_pages Examples.jane_db Examples.harry_potter 2 total_pages in
  (forall page,
      1 <= page <= total_pages \/ Sql.int64 ((page - 1) * 2) = true ->
      exists rows,
        search_stories Examples.jane_db Examples.harry_potter page 2
        = Py.Ok (rows, total_count)) /\
  Z.of_nat (length everything) = total_count /\
  Permutation everything (map select_columns matching) /\
  (List.NoDup (map rowid Examples.jane_db) -> List.NoDup (map sr_rowid everything)).
Proof.
  apply (search_pages_cover_matches Examples.jane_db Examples.harry_potter
           (Like ColCategory "%Harry Potter%" :: nil) 2).
  - vm_compute. reflexivity.
  - lia.
  - reflexivity.
  - reflexivity.
  - reflexivity.
Defined.

Example search_pages_sample :
  map sr_rowid (fetch Examples.jane_db Examples.harry_potter 2 1) = 2 :: 1 :: nil /\
  map sr_rowid (fetch Examples.jane_db Examples.harry_potter 2 2) = 3 :: nil /\
  map sr_rowid (all_pages Examples.jane_db Examples.harry_potter 2 2) = 2 :: 1 :: 3 :: nil.
Proof. repeat split; vm_compute; reflexivity. Qed.

(** ** [get_top_authors] and [get_basic_stats] *)

Lemma author_present_true (r : story) :
  author_present r = Some true <-> exists a, Author r = Some a /\ a <> "".
Proof.
  unfold author_present, Sql.ne3, Sql.eq3, Sql.not3, Sql.is_not_null.
  destruct (Author r) as [a|]; simpl.
  - destruct (String.eqb_spec a ""); simpl.
    + split; [discriminate | intros [b [[= <-] Hb]]; contradiction].
    + split; [intros _; now exists a | reflexivity].
  - split; [discriminate | intros [a [? _]]; discriminate].
Qed.

Lemma present_counts_where (db : table) :
  Sql.non_null (map word_count (Sql.where_ (fun r => Sql.is_not_null (word_count r)) db))
  = present_counts db.
Proof.
  induction db as [|r db IH]; simpl; [reflexivity|].
  destruct (word_count r) as [w|] eqn:E; simpl; [|assumption].
  rewrite E. simpl. now f_equal.
Qed.

Lemma positive_counts_where (db : table) :
  Sql.non_null (map word_count (Sql.where_ (fun r => Sql.gt3 (word_count r) 0) db))
  = positive (present_counts db).
Proof.
  induction db as [|r db IH]; simpl; [reflexivity|].
  destruct (word_count r) as [w|] eqn:E; simpl; [|assumption].
  destruct (0 <? w); simpl; [|assumption].
  rewrite E. simpl. now f_equal.
Qed.

Lemma words_of_group (db : table) (a : string) :
  a <> "" ->
  Sql.non_null (map word_count (author_group a (Sql.where_ author_present db)))
  = words_of db a.
Proof.
  intros Ha. induction db as [|r db IH]; simpl; [reflexivity|].
  unfold author_present at 1, Sql.ne3, Sql.eq3, Sql.not3, Sql.is_not_null.
  destruct (Author r) as [b|] eqn:Eb; simpl; [|assumption].
  destruct (String.eqb_spec b ""); simpl.
  - subst b. destruct (String.eqb_spec "" a); [congruence|].
    destruct (word_count r); assumption.
  - rewrite Eb. simpl. destruct (String.eqb b a); simpl.
    + destruct (word_count r); simpl; [now f_equal | assumption].
    + destruct (word_count r); assumption.
Qed.

Lemma positive_total (ws : list Z) :
  positive ws <> nil -> 0 < fold_right Z.add 0 (positive ws).
Proof.
  assert (Hnn : forall l, 0 <= fold_right Z.add 0 (positive l)).
  { induction l as [|x l IHl]; simpl; [lia|].
    destruct (Z.ltb_spec 0 x); simpl; lia. }
  induction ws as [|w ws IH]; simpl; [congruence|].
  destruct (Z.ltb_spec 0 w); simpl.
  - intros _. specialize (Hnn ws). lia.
  - assumption.
Qed.

(** Jane wrote one story of 1000 words and one of 0 words. Her average
    comes out as 1000/2, and 500 in the JSON answer; the mean over her
    stories of more than 0 words is 1000. *)
Lemma top_authors_average_counts_zero :
  get_top_authors Examples.zero_db 10
  = {| ar_author := "Jane"; ar_story_count := 2;
       ar_avg_words := Some (1000 # 2); ar_total_words := Some 1000 |} :: nil /\
  mean (positive (words_of Examples.zero_db "Jane")) = Some (1000 # 1) /\
  ~ (1000 # 2 == 1000 # 1)%Q /\
  Api.api_author_stats Examples.zero_db ∅
  = Api.Success ({| Api.name := "Jane"; Api.story_count := 2;
                    Api.avg_words := 500; Api.total_words := 1000 |} :: nil).
Proof.
  split; [vm_compute; reflexivity|].
  split; [vm_compute; reflexivity|].
  split; [|vm_compute; reflexivity].
  unfold Qeq. simpl. lia.
Qed.

(** C1, as the code has it. Every row of [get_top_authors] is for an
    author that is not empty; its average is the mean of that author's
    word counts that are present, a count of 0 included, and its total is
    the sum of the same counts, NULL when there is none. *)
Theorem get_top_authors_entry (db : table) (limit : Z) (e : author_row) :
  In e (get_top_authors db limit) ->
  ar_author e <> "" /\
  ar_avg_words e = mean (words_of db (ar_author e)) /\
  ar_total_words e = sum_or_null (words_of db (ar_author e)).
Proof.
  unfold get_top_authors, Sql.limit. intros He.
  apply in_limit_offset, in_order_by_desc, in_map_iff in He as [a [<- Ha]].
  apply list_elem_of_In, elem_of_remove_dups, list_elem_of_In, in_non_null in Ha.
  apply in_map_iff in Ha as [r [Hr Hin]].
  apply in_where in Hin as [_ Hp].
  apply author_present_true in Hp as [b [Hb Hne]].
  assert (b = a) by congruence. subst b. simpl.
  split; [assumption|].
  now rewrite avg_mean, sum_sum_or_null, words_of_group.
Qed.

Lemma get_top_authors_entry_witness :
  let e := {| ar_author := "Jane"; ar_story_count := 2;
              ar_avg_words := Some (1000 # 1); ar_total_words := Some 1000 |} in
  ar_author e <> "" /\
  ar_avg_words e = mean (words_of Examples.jane_db (ar_author e)) /\
  ar_total_words e = sum_or_null (words_of Examples.jane_db (ar_author e)).
Proof.
  apply (get_top_authors_entry Examples.jane_db 10).
  vm_compute. left. reflexivity.
Defined.

Example top_authors_scenario :
  Api.api_author_stats Examples.jane_db ∅
  = Api.Success ({| Api.name := "Jane"; Api.story_count := 2;
                    Api.avg_words := 1000; Api.total_words := 1000 |} :: nil).
Proof. vm_compute. reflexivity. Qed.

(** C10. [total_words] is the sum of the word counts that are present and
    NULL when none is; [avg_words] is the mean of the word counts greater
    than 0, cut down to an integer, and 0 when there is none. *)
Theorem get_basic_stats_words (db : table) :
  total_words (get_basic_stats db) = sum_or_null (present_counts db) /\
  avg_words (get_basic_stats db) =
    match positive (present_counts db) with
    | nil => 0
    | ws => Z.quot (fold_right Z.add 0 ws) (Z.of_nat (length ws))
    end.
Proof.
  unfold get_basic_stats. simpl. split.
  - now rewrite sum_sum_or_null, present_counts_where.
  - rewrite avg_mean, positive_counts_where.
    destruct (positive (present_counts db)) as [|w ws] eqn:E; [reflexivity|].
    unfold mean, int_or_zero, Py.trunc.
    cbn [Qnum Qden].
    assert (Hpos : 0 < fold_right Z.add 0 (w :: ws)).
    { rewrite <- E. apply positive_total. rewrite E. discriminate. }
    destruct (Z.eqb_spec (fold_right Z.add 0 (w :: ws)) 0); [lia|].
    f_equal. simpl length. lia.
Qed.

Example basic_stats_samples :
  get_basic_stats Examples.jane_db
  = {| total_stories := 3; unique_authors := 1;
       total_words := Some 1500; avg_words := 750 |} /\
  get_basic_stats Examples.blank_db
  = {| total_stories := 2; unique_authors := 2;
       total_words := None; avg_words := 0 |} /\
  total_words (get_basic_stats (Examples.story_by 1 (Some "Jane") (Some 0) "2021" :: nil))
  = Some 0.
Proof. repeat split; vm_compute; reflexivity. Qed.

(** ** The index manager *)









(** C8. Without the confirmation nothing is dropped: the database is
    returned as it was, with an empty [removed] list and no error. *)
Theorem remove_indexes_unconfirmed (bare : string -> bool) (db : database) :
  let after := remove_indexes bare db false in
  fst after = db /\
  check_existing_indexes (fst after) = check_existing_indexes db /\
  removed (snd after) = nil /\
  remove_errors (snd after) = nil.
Proof.
  unfold remove_indexes. cbn [negb fst snd removed remove_errors].
  repeat split.
Qed.















Example create_indexes_sample :
  created (snd (create_indexes Examples.foreign_db false)) = tl (map name indexes) /\
  skipped (snd (create_indexes Examples.foreign_db false)) = "idx_author" :: nil /\
  length (master (fst (create_indexes Examples.foreign_db false))) = 21%nat /\
  create_errors (snd (create_indexes (mkDatabase ("Title" :: nil) nil) false))
  <> nil.
Proof. repeat split; try (vm_compute; reflexivity). vm_compute. discriminate. Qed.

(** ** The views *)

Section QueryParams.

Variable args : gmap string string.

Lemma collect_lookup_out (keys : list string) (k : string) :
  ~ In k keys -> Request.collect args keys !! k = None.
Proof.
  induction keys as [|k' keys IH]; simpl; intros Hk.
  - apply lookup_empty.
  - destruct (Py.truthy (Request.stripped args k')).
    + rewrite lookup_insert_ne by (intros ->; apply Hk; now left).
      apply IH. intros H. apply Hk. now right.
    + apply IH. intros H. apply Hk. now right.
Qed.

Lemma collect_lookup_in (keys : list string) (k : string) :
  In k keys ->
  Request.collect args keys !! k =
  if Py.truthy (Request.stripped args k) then Some (Request.stripped args k) else None.
Proof.
  induction keys as [|k' keys IH]; simpl; intros Hk; [contradiction|].
  destruct (decide (k' = k)) as [->|Hne].
  - destruct (Py.truthy (Request.stripped args k)) eqn:E.
    + apply lookup_insert_eq.
    + destruct (in_dec string_dec k keys) as [Hin|Hout].
      * exact (IH Hin).
      * now apply collect_lookup_out.
  - destruct Hk as [Hk|Hk]; [contradiction|].
    destruct (Py.truthy (Request.stripped args k')).
    + rewrite lookup_insert_ne by assumption. now apply IH.
    + now apply IH.
Qed.

(** A filter key of the request reaches [search_stories] stripped, and is
    left out when blank. *)
Lemma query_params_lookup (k : string) :
  In k Request.filter_keys ->
  Request.query_params args !! k =
  if Py.truthy (Request.stripped args k) then Some (Request.stripped args k) else None.
Proof. apply collect_lookup_in. Qed.

End QueryParams.

(** A malformed bound reaches the caller of either view as a 500. *)
Lemma views_malformed_bound (db : table) (args : gmap string string) (key : string) :
  key = "min_words" \/ key = "max_words" ->
  Py.truthy (Request.stripped args key) = true ->
  Py.parse_int (Request.stripped args key) = None ->
  Api.api_search db args = Api.Failure 500 "Search failed" /\
  Routes.search db args = Routes.Error500.
Proof.
  intros Hkey Ht Hp.
  assert (Hq : Request.query_params args !! key = Some (Request.stripped args key)).
  { rewrite query_params_lookup, Ht; [reflexivity|].
    destruct Hkey as [-> | ->]; unfold Request.filter_keys; simpl; tauto. }
  destruct (where_conditions_malformed _ key _ Hkey Hq Ht Hp) as [lit Hw].
  assert (Hne : Request.nonempty (Request.query_params args) = true).
  { unfold Request.nonempty.
    destruct (map_to_list (Request.query_params args)) as [|kv l] eqn:E; [|reflexivity].
    apply map_to_list_empty_iff in E. rewrite E, lookup_empty in Hq. discriminate. }
  split.
  - unfold Api.api_search.
    destruct (Py.int_arg args "page" 1); [|reflexivity].
    destruct (Py.int_arg args "per_page" 50); [|reflexivity].
    unfold search_stories. rewrite Hw. reflexivity.
  - unfold Routes.search.
    destruct (Py.int_arg args "page" 1); [|reflexivity].
    destruct (Py.int_arg args "per_page" 50); [|reflexivity].
    simpl Py.bind. rewrite Hne. simpl orb. cbv iota.
    unfold search_stories. rewrite Hw. reflexivity.
Qed.

(** The JSON endpoint answers a request for more than 100 records a page
    as it answers the same request for 100. *)
Lemma api_search_clamps (db : table) (args : gmap string string) (n : Z) :
  Py.int_arg args "per_page" 50 = Py.Ok n -> 100 < n ->
  Api.api_search db args = Api.api_search db (<["per_page" := "100"]> args).
Proof.
  intros Hn Hbig. unfold Api.api_search.
  assert (Hq : Request.query_params (<["per_page" := "100"]> args)
               = Request.query_params args).
  { unfold Request.query_params, Request.collect, Request.filter_keys, Request.stripped.
    simpl.
    now rewrite !lookup_insert_ne by discriminate. }
  assert (Hpage : Py.int_arg (<["per_page" := "100"]> args) "page" 1
                  = Py.int_arg args "page" 1).
  { unfold Py.int_arg. now rewrite lookup_insert_ne by discriminate. }
  assert (Hper : Py.int_arg (<["per_page" := "100"]> args) "per_page" 50 = Py.Ok 100).
  { unfold Py.int_arg. now rewrite lookup_insert_eq. }
  rewrite Hq, Hpage, Hper, Hn.
  destruct (Py.int_arg args "page" 1); [|reflexivity]. simpl.
  replace (n `min` 100) with 100 by lia. reflexivity.
Qed.
